(** * Verification of the PixPod Streamlit front-end ([streamlit_app.py])

    Shallow embedding of the credential resolution, agent configuration,
    response extraction, agent invocation and session-state handling of the
    page script.  Python strings are represented by their UTF-8 encoding
    (a [string] is a byte string), Python dicts used as configuration
    sources by stdpp's [gmap string string]. *)

From Stdlib Require Import Strings.String Strings.Byte Strings.Ascii.
From stdpp Require Import base gmap strings pretty list.

Local Open Scope stdpp_scope.

(* ------------------------------------------------------------------ *)
(** ** Python values used by the script *)

(** A chunk payload of the agent response stream ([event['chunk']]); the
    ['bytes'] key is optional in the service shape. *)
Record chunk := { chunk_bytes : option (list byte) }.

(** One event of the completion stream.  Bedrock events are one-key dicts:
    [{'chunk': {...}}] or another event kind ([{'trace': ...}], ...), whose
    value is kept as its Python [repr]. *)
Inductive event :=
| EvChunk (c : chunk)
| EvOther (key : string) (value_repr : string).

(** Exceptions.  [Exception2 msg arg] is [Exception(msg, arg)], the only
    shape of plain [Exception] the script raises itself. *)
Inductive exn :=
| ClientError (op code message : string)
    (** botocore [ClientError]; [code] and [message] are
        [e.response['Error']['Code']] and [['Message']] *)
| NoCredentialsError
| KeyError (key : string)
| PyError (cls msg : string)
    (** any other library exception, with its class name and [str()] *)
| Exception2 (msg : string) (arg : pyval)
with pyval :=
| VStr (s : string)
| VEvent (ev : event)
| VExn (e : exn).

(** Result of a Python computation: a value or a raised exception. *)
Inductive outcome (A : Type) :=
| Ret (a : A)
| Raise (e : exn).
Arguments Ret {A} a.
Arguments Raise {A} e.

Definition obind {A B} (m : outcome A) (f : A -> outcome B) : outcome B :=
  match m with Ret a => f a | Raise e => Raise e end.

(** [try: m except Exception as e: h(e)] *)
Definition otry {A} (m : outcome A) (h : exn -> outcome A) : outcome A :=
  match m with Ret a => Ret a | Raise e => h e end.

Notation "'let!' x := m 'in' k" := (obind m (fun x => k))
  (at level 200, x name, m at level 100, k at level 200).

(* ------------------------------------------------------------------ *)
(** ** [str()] and [repr()] of the values above (CPython rendering) *)

Definition hex_digit (n : nat) : string :=
  match n with
  | 0 => "0" | 1 => "1" | 2 => "2" | 3 => "3" | 4 => "4" | 5 => "5"
  | 6 => "6" | 7 => "7" | 8 => "8" | 9 => "9" | 10 => "a" | 11 => "b"
  | 12 => "c" | 13 => "d" | 14 => "e" | _ => "f"
  end.

Definition hex2 (n : nat) : string :=
  hex_digit (n `div` 16) +:+ hex_digit (n `mod` 16).

Definition byte_str (b : byte) : string := String.string_of_list_byte [b].

(** The quote [repr] chooses: a single quote (byte 0x27) unless the text
    contains one and no double quote (byte 0x22). *)
Definition repr_quote (bs : list byte) : byte :=
  if existsb (fun b => Byte.eqb b "'"%byte) bs
     && negb (existsb (fun b => Byte.eqb b x22) bs)
  then x22 else "'"%byte.

(** Escape of one byte inside [repr]; [keep_high] keeps bytes >= 0x80
    (true for [str], whose non-ASCII characters are printed as they are). *)
Definition repr_byte (keep_high : bool) (q b : byte) : string :=
  let n := Byte.to_nat b in
  if Byte.eqb b q || Byte.eqb b "\"%byte then "\" +:+ byte_str b
  else if Nat.eqb n 9 then "\t"
  else if Nat.eqb n 10 then "\n"
  else if Nat.eqb n 13 then "\r"
  else if (n <? 32) || Nat.eqb n 127 || (negb keep_high && (128 <=? n))
  then "\x" +:+ hex2 n
  else byte_str b.

Definition repr_body (keep_high : bool) (q : byte) (bs : list byte) : string :=
  foldr (fun b acc => repr_byte keep_high q b +:+ acc) EmptyString bs.

(** [repr(b)] for a [bytes] object. *)
Definition bytes_repr (bs : list byte) : string :=
  let q := repr_quote bs in
  "b" +:+ byte_str q +:+ repr_body false q bs +:+ byte_str q.

(** [repr(s)] for a [str]. *)
Definition str_repr (s : string) : string :=
  let bs := String.list_byte_of_string s in
  let q := repr_quote bs in
  byte_str q +:+ repr_body true q bs +:+ byte_str q.

Definition event_repr (ev : event) : string :=
  match ev with
  | EvChunk c =>
      match chunk_bytes c with
      | Some bs => "{'chunk': {'bytes': " +:+ bytes_repr bs +:+ "}}"
      | None => "{'chunk': {}}"
      end
  | EvOther k v => "{" +:+ str_repr k +:+ ": " +:+ v +:+ "}"
  end.

Definition client_error_str (op code message : string) : string :=
  "An error occurred (" +:+ code +:+ ") when calling the " +:+ op
    +:+ " operation: " +:+ message.

Fixpoint py_repr (e : exn) : string :=
  match e with
  | ClientError op code m =>
      "ClientError(" +:+ str_repr (client_error_str op code m) +:+ ")"
  | NoCredentialsError =>
      "NoCredentialsError(" +:+ str_repr "Unable to locate credentials" +:+ ")"
  | KeyError k => "KeyError(" +:+ str_repr k +:+ ")"
  | PyError c m => c +:+ "(" +:+ str_repr m +:+ ")"
  | Exception2 m a => "Exception(" +:+ str_repr m +:+ ", " +:+ pyval_repr a +:+ ")"
  end
with pyval_repr (v : pyval) : string :=
  match v with
  | VStr s => str_repr s
  | VEvent ev => event_repr ev
  | VExn e => py_repr e
  end.

(** [str(e)]; for [Exception(m, a)] it is the [repr] of the tuple [args]. *)
Definition py_str (e : exn) : string :=
  match e with
  | ClientError op code m => client_error_str op code m
  | NoCredentialsError => "Unable to locate credentials"
  | KeyError k => str_repr k
  | PyError _ m => m
  | Exception2 m a => "(" +:+ str_repr m +:+ ", " +:+ pyval_repr a +:+ ")"
  end.

(* ------------------------------------------------------------------ *)
(** ** [bytes.decode('utf8')] (strict) *)

(** Admissible ranges of the continuation bytes after a lead byte, as in
    CPython's UTF-8 decoder; [None] for an invalid start byte. *)
Definition utf8_cont_ranges (n : nat) : option (list (nat * nat)) :=
  if n <? 128 then Some []
  else if n <? 194 then None
  else if n <? 224 then Some [(128, 191)]
  else if Nat.eqb n 224 then Some [(160, 191); (128, 191)]
  else if Nat.eqb n 237 then Some [(128, 159); (128, 191)]
  else if n <? 240 then Some [(128, 191); (128, 191)]
  else if Nat.eqb n 240 then Some [(144, 191); (128, 191); (128, 191)]
  else if n <? 244 then Some [(128, 191); (128, 191); (128, 191)]
  else if Nat.eqb n 244 then Some [(128, 143); (128, 191); (128, 191)]
  else None.

Definition decode_error_byte (b : byte) (pos : nat) (reason : string) : exn :=
  PyError "UnicodeDecodeError"
    ("'utf-8' codec can't decode byte 0x" +:+ hex2 (Byte.to_nat b)
       +:+ " in position " +:+ pretty pos +:+ ": " +:+ reason).

Definition decode_error_range (start stop : nat) (reason : string) : exn :=
  PyError "UnicodeDecodeError"
    ("'utf-8' codec can't decode bytes in position " +:+ pretty start +:+ "-"
       +:+ pretty stop +:+ ": " +:+ reason).

(** Scan of the byte string: [pending] are the continuation ranges still
    expected for the sequence that started at [start] with byte [lead]. *)
Fixpoint utf8_scan (pending : list (nat * nat)) (start : nat) (lead : byte)
    (pos : nat) (bs : list byte) : option exn :=
  match bs with
  | [] =>
      match pending with
      | [] => None
      | _ :: _ =>
          if Nat.eqb (pos - start) 1
          then Some (decode_error_byte lead start "unexpected end of data")
          else Some (decode_error_range start (pos - 1) "unexpected end of data")
      end
  | b :: rest =>
      match pending with
      | [] =>
          match utf8_cont_ranges (Byte.to_nat b) with
          | None => Some (decode_error_byte b pos "invalid start byte")
          | Some rs => utf8_scan rs pos b (S pos) rest
          end
      | (lo, hi) :: ps =>
          if (lo <=? Byte.to_nat b) && (Byte.to_nat b <=? hi)
          then utf8_scan ps start lead (S pos) rest
          else Some (decode_error_byte lead start "invalid continuation byte")
      end
  end.

(** [data.decode('utf8')]: the decoded [str] is represented by its UTF-8
    encoding, i.e. the same bytes once they are known to be valid. *)
Definition utf8_decode (bs : list byte) : outcome string :=
  match utf8_scan [] 0 "000"%byte 0 bs with
  | None => Ret (String.string_of_list_byte bs)
  | Some e => Raise e
  end.

(* ------------------------------------------------------------------ *)
(** ** [process_response] *)

(** An element of the completion stream: the iterator yields an event, or
    raises (botocore raises [EventStreamError] for error events). *)
Inductive stream_item :=
| Item (ev : event)
| StreamRaise (e : exn).

(** The response dict of [invoke_agent]; only ['completion'] is read. *)
Record response := { completion : list stream_item }.

(** Outcome of one iteration of a [for] loop body. *)
Inductive loop_step (A : Type) :=
| Continue
| Return (a : A)
| Throw (e : exn).
Arguments Continue {A}.
Arguments Return {A} a.
Arguments Throw {A} e.

(** [for event in event_stream: body]; falling off the end of the
    function returns [None]. *)
Fixpoint for_events {A} (body : event -> loop_step A) (s : list stream_item)
    : outcome (option A) :=
  match s with
  | [] => Ret None
  | StreamRaise e :: _ => Raise e
  | Item ev :: rest =>
      match body ev with
      | Continue => for_events body rest
      | Return a => Ret (Some a)
      | Throw e => Raise e
      end
  end.

(** The loop body of [process_response] (lines 83-88). *)
Definition process_event (ev : event) : loop_step string :=
  match ev with
  | EvChunk c =>
      match chunk_bytes c with
      | None => Throw (KeyError "bytes")
      | Some data =>
          match utf8_decode data with
          | Ret agent_answer => Return agent_answer
          | Raise e => Throw e
          end
      end
  | EvOther _ _ => Throw (Exception2 "unexpected event." (VEvent ev))
  end.

(** [process_response(resp)]: [Ret None] is the implicit [return None]. *)
Definition process_response (resp : response) : outcome (option string) :=
  otry (for_events process_event (completion resp))
       (fun e => Raise (Exception2 "unexpected event." (VExn e))).

(* ------------------------------------------------------------------ *)
(** ** [generate_response] *)

(** Opaque client handle returned by [boto3.client]. *)
Definition aws_client := nat.

(** Keyword arguments of [client.invoke_agent]. *)
Record invoke_args := {
  agentId : option string;
  agentAliasId : option string;
  sessionId : string;
  inputText : string
}.

(** The remote call [client.invoke_agent(...)], supplied by the caller:
    it returns the response dict or raises. *)
Definition invoke_agent_fn := aws_client -> invoke_args -> outcome response.

(** Python truthiness of [response_text] ([None] and [""] are false). *)
Definition str_truthy (r : option string) : bool :=
  match r with
  | Some s => negb (String.eqb s EmptyString)
  | None => false
  end.

Definition msg_access_denied : string :=
  "❌ Access denied. Check your AWS permissions for Bedrock.".
Definition msg_agent_not_found : string :=
  "❌ Agent not found. Check your Agent ID and Alias ID.".
Definition msg_aws_error (m : string) : string := "❌ AWS Error: " +:+ m.
Definition msg_no_credentials : string :=
  "❌ AWS credentials not found. Please configure credentials.".
Definition msg_unexpected (e : exn) : string :=
  "❌ Unexpected error: " +:+ py_str e.
Definition msg_no_response : string := "No response received".

(** The three [except] clauses of [generate_response], in order. *)
Definition generate_response_handler (e : exn) : outcome string :=
  match e with
  | ClientError _ error_code m =>
      if String.eqb error_code "AccessDeniedException" then Ret msg_access_denied
      else if String.eqb error_code "ResourceNotFoundException"
      then Ret msg_agent_not_found
      else Ret (msg_aws_error m)
  | NoCredentialsError => Ret msg_no_credentials
  | _ => Ret (msg_unexpected e)
  end.

Definition generate_response (invoke_agent : invoke_agent_fn) (c : aws_client)
    (prompt : string) (agent_id agent_alias_id : option string)
    (session_id : string) : outcome string :=
  otry
    (let! resp := invoke_agent c {| agentId := agent_id;
                                    agentAliasId := agent_alias_id;
                                    sessionId := session_id;
                                    inputText := prompt |} in
     let! response_text := process_response resp in
     Ret (match response_text with
          | Some t => if str_truthy response_text then t else msg_no_response
          | None => msg_no_response
          end))
    generate_response_handler.

(* ------------------------------------------------------------------ *)
(** ** Configuration sources *)

(** [st.secrets]: reading it raises when no secrets file can be loaded;
    otherwise it is a string-keyed mapping. *)
Definition secrets_store := outcome (gmap string string).

(** [st.secrets[k]] *)
Definition secrets_getitem (sec : secrets_store) (k : string) : outcome string :=
  let! m := sec in
  match m !! k with Some v => Ret v | None => Raise (KeyError k) end.

(** [k in st.secrets] *)
Definition secrets_contains (sec : secrets_store) (k : string) : outcome bool :=
  let! m := sec in Ret (bool_decide (is_Some (m !! k))).

(** [st.secrets.get(k)] *)
Definition secrets_get (sec : secrets_store) (k : string) : outcome (option string) :=
  let! m := sec in Ret (m !! k).

(** [os.getenv(k)] *)
Definition getenv (environ : gmap string string) (k : string) : option string :=
  environ !! k.

(** [os.environ] once [st.secrets] has been loaded: parsing the secrets
    file copies every root-level string entry into [os.environ]
    ([os.environ[k] = v], so a secret overrides a variable of the same
    name); nothing is copied when the secrets cannot be loaded. Applying it
    again changes nothing, so it is also the environment when the secrets
    were already loaded earlier in the process. *)
Definition secrets_environ (sec : secrets_store) (environ : gmap string string)
    : gmap string string :=
  match sec with
  | Ret m => m ∪ environ
  | Raise _ => environ
  end.

(** [get_agent_config()]: the two variables [agent_id], [agent_alias_id]
    are assigned in turn inside [try]; the bare [except] reassigns both.
    [environ] is [os.environ] at the call; the [os.getenv] calls of the
    [except] branch run after [st.secrets['AGENT_ID']] has loaded the
    secrets, so they read [secrets_environ sec environ]. *)
Definition get_agent_config (sec : secrets_store) (environ : gmap string string)
    : option string * option string :=
  let agent_id : option string := None in
  let agent_alias_id : option string := None in
  let environ' := secrets_environ sec environ in
  let from_env := (getenv environ' "AGENT_ID", getenv environ' "AGENT_ALIAS_ID") in
  match secrets_getitem sec "AGENT_ID" with
  | Raise _ => from_env
  | Ret a =>
      let agent_id := Some a in
      match secrets_getitem sec "AGENT_ALIAS_ID" with
      | Raise _ => from_env
      | Ret b => let agent_alias_id := Some b in (agent_id, agent_alias_id)
      end
  end.

(* ------------------------------------------------------------------ *)
(** ** [initialize_aws_client] *)

(** Keyword arguments of [boto3.client('bedrock-agent-runtime', ...)];
    an omitted credential is [None], as for boto3. *)
Record client_args := {
  region_name : string;
  aws_access_key_id : option string;
  aws_secret_access_key : option string;
  aws_session_token : option string
}.

(** Observable effects: page messages and the calls to the AWS library. *)
Inductive effect :=
| StSuccess (m : string)
| StWarning (m : string)
| StError (m : string)
| Boto3Client (a : client_args)
| ListAgents (c : aws_client).

(** The environment of the script: secrets, process environment, and the
    behaviour of [boto3.client] and of the probe [client.list_agents]. *)
Record aws_env := {
  st_secrets : secrets_store;
  environ : gmap string string;
  boto3_client : client_args -> outcome aws_client;
  list_agents : aws_client -> outcome unit
}.

(** Python code with exceptions and an effect log. *)
Definition PM (A : Type) := list effect -> outcome A * list effect.

Definition pret {A} (a : A) : PM A := fun lg => (Ret a, lg).
Definition pbind {A B} (m : PM A) (f : A -> PM B) : PM B :=
  fun lg => match m lg with
            | (Ret a, lg') => f a lg'
            | (Raise e, lg') => (Raise e, lg')
            end.
Definition plift {A} (o : outcome A) : PM A := fun lg => (o, lg).
Definition pemit (ef : effect) : PM unit := fun lg => (Ret tt, lg ++ [ef]).
Definition ptry {A} (m : PM A) (h : exn -> PM A) : PM A :=
  fun lg => match m lg with
            | (Ret a, lg') => (Ret a, lg')
            | (Raise e, lg') => h e lg'
            end.

Notation "'do!' x := m 'in' k" := (pbind m (fun x => k))
  (at level 200, x name, m at level 100, k at level 200).
Notation "m ;;; k" := (pbind m (fun _ => k)) (at level 100, right associativity).

(** [boto3.client('bedrock-agent-runtime', region_name='us-east-1', ...)] *)
Definition call_boto3_client (env : aws_env) (a : client_args) : PM aws_client :=
  pemit (Boto3Client a) ;;; plift (boto3_client env a).

Definition mk_args (ak sk tok : option string) : client_args :=
  {| region_name := "us-east-1"; aws_access_key_id := ak;
     aws_secret_access_key := sk; aws_session_token := tok |}.

(** Method 1 (lines 20-29); [hasattr(st, 'secrets')] always holds. *)
Definition method_secrets (env : aws_env) : PM (option aws_client) :=
  do! has := plift (secrets_contains (st_secrets env) "AWS_ACCESS_KEY_ID") in
  if has then
    do! ak := plift (secrets_getitem (st_secrets env) "AWS_ACCESS_KEY_ID") in
    do! sk := plift (secrets_getitem (st_secrets env) "AWS_SECRET_ACCESS_KEY") in
    do! tok := plift (secrets_get (st_secrets env) "AWS_SESSION_TOKEN") in
    do! c := call_boto3_client env (mk_args (Some ak) (Some sk) tok) in
    pemit (StSuccess "✅ AWS credentials loaded from Streamlit secrets") ;;;
    pret (Some c)
  else pret None.

(** Method 2 (lines 36-45): [if os.getenv('AWS_ACCESS_KEY_ID'):]. *)
Definition method_environ (env : aws_env) : PM (option aws_client) :=
  if str_truthy (getenv (environ env) "AWS_ACCESS_KEY_ID") then
    do! c := call_boto3_client env
               (mk_args (getenv (environ env) "AWS_ACCESS_KEY_ID")
                        (getenv (environ env) "AWS_SECRET_ACCESS_KEY")
                        (getenv (environ env) "AWS_SESSION_TOKEN")) in
    pemit (StSuccess "✅ AWS credentials loaded from environment variables") ;;;
    pret (Some c)
  else pret None.

(** Method 3 (lines 52-56): default credentials and the probe call
    [client.list_agents(maxResults=1)]. *)
Definition method_default (env : aws_env) : PM (option aws_client) :=
  do! c := call_boto3_client env (mk_args None None None) in
  pemit (ListAgents c) ;;;
  do! _u := plift (list_agents env c) in
  pemit (StSuccess "✅ AWS credentials loaded from default sources") ;;;
  pret (Some c).

Definition initialize_aws_client (env : aws_env) : PM (option aws_client) :=
  do! r1 := ptry (method_secrets env)
              (fun e => pemit (StWarning ("Streamlit secrets method failed: " +:+ py_str e)) ;;;
                        pret None) in
  match r1 with
  | Some c => pret (Some c)
  | None =>
      do! r2 := ptry (method_environ env)
                  (fun e => pemit (StWarning ("Environment variables method failed: "
                                               +:+ py_str e)) ;;;
                            pret None) in
      match r2 with
      | Some c => pret (Some c)
      | None =>
          ptry (method_default env)
            (fun e => pemit (StError ("Default credentials method failed: " +:+ py_str e)) ;;;
                      pret None)
      end
  end.

(** The [boto3.client] calls recorded in an effect log, in order. *)
Definition boto3_calls (lg : list effect) : list client_args :=
  omap (fun ef => match ef with Boto3Client a => Some a | _ => None end) lg.

(** The resolution as the spec describes it (section 4.1): each source is
    an attempt giving the [boto3.client] calls it makes and the client it
    yields; the sources are tried in order until one yields a client. *)
Definition spec_source_secrets (env : aws_env) : list client_args * option aws_client :=
  match st_secrets env with
  | Raise _ => ([], None)
  | Ret m =>
      match m !! "AWS_ACCESS_KEY_ID", m !! "AWS_SECRET_ACCESS_KEY" with
      | Some ak, Some sk =>
          let a := mk_args (Some ak) (Some sk) (m !! "AWS_SESSION_TOKEN") in
          ([a], match boto3_client env a with Ret c => Some c | Raise _ => None end)
      | _, _ => ([], None)
      end
  end.

Definition spec_source_environ (env : aws_env) : list client_args * option aws_client :=
  match environ env !! "AWS_ACCESS_KEY_ID" with
  | Some ak =>
      if String.eqb ak EmptyString then ([], None)
      else
        let a := mk_args (Some ak) (environ env !! "AWS_SECRET_ACCESS_KEY")
                         (environ env !! "AWS_SESSION_TOKEN") in
        ([a], match boto3_client env a with Ret c => Some c | Raise _ => None end)
  | None => ([], None)
  end.

Definition spec_source_default (env : aws_env) : list client_args * option aws_client :=
  let a := mk_args None None None in
  ([a], match boto3_client env a with
        | Ret c => match list_agents env c with Ret _ => Some c | Raise _ => None end
        | Raise _ => None
        end).

Fixpoint first_success (srcs : list (list client_args * option aws_client))
    : list client_args * option aws_client :=
  match srcs with
  | [] => ([], None)
  | (calls, Some c) :: _ => (calls, Some c)
  | (calls, None) :: rest =>
      let r := first_success rest in (calls ++ fst r, snd r)
  end.

Definition spec_resolve (env : aws_env) : list client_args * option aws_client :=
  first_success [spec_source_secrets env; spec_source_environ env;
                 spec_source_default env].

(* ------------------------------------------------------------------ *)
(** ** Session state and one run of the page script *)

Inductive msg_role := User | Assistant.

Definition role_str (r : msg_role) : string :=
  match r with User => "user" | Assistant => "assistant" end.

(** [{"role": ..., "content": ...}] *)
Record message := { role : msg_role; content : string }.

(** [st.session_state] once its four keys are initialised (lines 123-133). *)
Record session_state := {
  session_id : string;
  messages : list message;
  client_initialized : bool;
  client : option aws_client
}.

(** Lines 123-133 on the first run; [fresh_uuid] is [str(uuid.uuid4())]. *)
Definition initial_session_state (fresh_uuid : string) : session_state :=
  {| session_id := fresh_uuid; messages := []; client_initialized := false;
     client := None |}.

Definition set_messages (s : session_state) (ms : list message) : session_state :=
  {| session_id := session_id s; messages := ms;
     client_initialized := client_initialized s; client := client s |}.

Definition set_client (s : session_state) (c : option aws_client) (ini : bool)
    : session_state :=
  {| session_id := session_id s; messages := messages s;
     client_initialized := ini; client := c |}.

(** The user interaction that triggers a run: at most one widget fires per
    run, and a button handler ends the run with [st.rerun()]. *)
Inductive ui_event :=
| NoInput
| ClickNewSession (fresh_uuid : string)
| ClickInitialize
| ClickRetry
| ClickClearChat
| ChatInput (prompt : string).

Record page_env := {
  aws : aws_env;
  invoke_agent : invoke_agent_fn
}.

(** [st.session_state.client = initialize_aws_client()]; if the call
    raised, the assignment would not happen. *)
Definition run_initialize (env : aws_env) (old : option aws_client)
    : option aws_client * bool :=
  match fst (initialize_aws_client env []) with
  | Ret c => (c, true)
  | Raise _ => (old, false)
  end.

(** The chat input handler (lines 229-258), reached once the client and the
    agent configuration checks of lines 193-232 pass. *)
Definition chat_turn (penv : page_env) (prompt : string) (s : session_state)
    : session_state :=
  if negb (client_initialized s) then s
  else
    match client s with
    | None => s
    | Some c =>
        let '(agent_id, agent_alias_id) :=
          get_agent_config (st_secrets (aws penv)) (environ (aws penv)) in
        if negb (str_truthy agent_id && str_truthy agent_alias_id) then s
        else if negb (str_truthy (Some prompt)) then s
        else
          let s1 := set_messages s
                      (messages s ++ [{| role := User; content := prompt |}]) in
          match generate_response (invoke_agent penv) c prompt agent_id
                  agent_alias_id (session_id s) with
          | Ret response =>
              set_messages s1
                (messages s1 ++ [{| role := Assistant; content := response |}])
          | Raise _ => s1
          end
    end.

(** One run of the script, from the state it starts with to the state it
    leaves.  The rerun that follows a button adds no further change. *)
Definition page_run (penv : page_env) (ev : ui_event) (s : session_state)
    : session_state :=
  match ev with
  | NoInput => s
  | ClickNewSession u =>
      {| session_id := u; messages := [];
         client_initialized := client_initialized s; client := client s |}
  | ClickInitialize =>
      if client_initialized s then s
      else
        let '(c, ok) := run_initialize (aws penv) (client s) in
        if ok then set_client s c true else s
  | ClickRetry =>
      if client_initialized s then
        match client s with
        | Some _ => s
        | None =>
            let '(c, ok) := run_initialize (aws penv) (client s) in
            if ok then set_client s c true else s
        end
      else s
  | ClickClearChat => set_messages s []
  | ChatInput prompt => chat_turn penv prompt s
  end.

(* ------------------------------------------------------------------ *)
(** ** Chat export (lines 268-280) *)

(** JSON values as built by the script (dict key order kept). *)
#[warnings="-register-all"]
Inductive json :=
| JStr (s : string)
| JArr (l : list json)
| JObj (l : list (string * json)).

(** [datetime.now()]: a naive [datetime]. *)
Record datetime := {
  year : N; month : N; day : N;
  hour : N; minute : N; second : N; microsecond : N
}.

Definition digit_str (n : N) : string := hex_digit (N.to_nat (n `mod` 10)).

(** The [w] low decimal digits of [n]. *)
Fixpoint fixed_digits (w : nat) (n : N) : string :=
  match w with
  | 0 => EmptyString
  | S w' => fixed_digits w' (n `div` 10) +:+ digit_str n
  end.

(** ['%0wd' % n] *)
Definition zfill (w : nat) (n : N) : string :=
  if (n <? 10 ^ N.of_nat w)%N then fixed_digits w n else pretty n.

(** [datetime.isoformat()] with the default separator ['T']. *)
Definition isoformat (d : datetime) : string :=
  let frac := if N.eqb (microsecond d) 0 then EmptyString
              else "." +:+ zfill 6 (microsecond d) in
  zfill 4 (year d) +:+ "-" +:+ zfill 2 (month d) +:+ "-" +:+ zfill 2 (day d)
  +:+ "T" +:+ zfill 2 (hour d) +:+ ":" +:+ zfill 2 (minute d) +:+ ":"
  +:+ zfill 2 (second d) +:+ frac.

(** The field ranges of a Python [datetime] object. *)
Definition valid_datetime (d : datetime) : Prop :=
  ((1 <= year d <= 9999) /\ (1 <= month d <= 12) /\ (1 <= day d <= 31) /\
   (hour d < 24) /\ (minute d < 60) /\ (second d < 60) /\
   (microsecond d < 1000000))%N.

Definition message_json (m : message) : json :=
  JObj [("role", JStr (role_str (role m))); ("content", JStr (content m))].

(** [st.download_button(label=..., data=..., file_name=..., mime=...)] *)
Record download := {
  dl_label : string;
  dl_data : string;
  dl_file_name : string;
  dl_mime : string
}.

Section ChatExport.
(** [json.dumps(_, indent=2)] *)
Variable json_dumps : json -> string.

Definition chat_export_value (s : session_state) (now : datetime) : json :=
  JObj [("session_id", JStr (session_id s));
        ("timestamp", JStr (isoformat now));
        ("messages", JArr (map message_json (messages s)))].

(** The export button offered at the end of a run, if any. *)
Definition export_chat (s : session_state) (now : datetime) : option download :=
  match messages s with
  | [] => None
  | _ :: _ =>
      Some {| dl_label := "💾 Download Chat";
              dl_data := json_dumps (chat_export_value s now);
              dl_file_name := "chat_" +:+ String.substring 0 8 (session_id s) +:+ ".json";
              dl_mime := "application/json" |}
  end.
End ChatExport.


(* ------------------------------------------------------------------ *)
(** ** Usage statistics (lines 263-266) *)

(** [len(st.session_state.messages)] *)
Definition message_count (s : session_state) : nat := length (messages s).

Definition is_user_message (m : message) : bool :=
  match role m with User => true | Assistant => false end.

(** [len([m for m in st.session_state.messages if m["role"] == "user"])] *)
Definition user_message_count (s : session_state) : nat :=
  length (filter (fun m => is_user_message m = true) (messages s)).

(* ------------------------------------------------------------------ *)
(** ** Observations on the effect log *)

Definition is_success_effect (ef : effect) : bool :=
  match ef with StSuccess _ => true | _ => false end.

(** The clients probed with [list_agents], in order. *)
Definition probe_calls (lg : list effect) : list aws_client :=
  omap (fun ef => match ef with ListAgents c => Some c | _ => None end) lg.

(* ------------------------------------------------------------------ *)
(** ** Vocabulary of the statements *)

(** Completion streams and mock clients used in the statements. *)
Definition chunk_event (b : list byte) : event := EvChunk {| chunk_bytes := Some b |}.

Definition stream (items : list stream_item) : response := {| completion := items |}.

(** A client whose [invoke_agent] returns [resp]. *)
Definition answering_client (resp : response) : invoke_agent_fn := fun _ _ => Ret resp.

(** A client whose [invoke_agent] raises [e]. *)
Definition raising_client (e : exn) : invoke_agent_fn := fun _ _ => Raise e.

(** The agent configuration check of lines 229-232 passes. *)
Definition config_ok (penv : page_env) : bool :=
  let '(a, b) := get_agent_config (st_secrets (aws penv)) (environ (aws penv)) in
  str_truthy a && str_truthy b.

Definition demo_page_env : page_env :=
  {| aws := {| st_secrets := Ret (<["AGENT_ID" := "AGENT1"]>
                                   (<["AGENT_ALIAS_ID" := "ALIAS1"]> ∅));
               environ := ∅;
               boto3_client := fun _ => Ret 0;
               list_agents := fun _ => Ret tt |};
     invoke_agent := answering_client (stream [Item (chunk_event [x48; x69])]) |}.

Definition demo_ready_state : session_state :=
  {| session_id := "0b9f3c2e-6a1d-4f7e-9c55-2d8e1a7b4c10"; messages := [];
     client_initialized := true; client := Some 0 |}.

Definition is_digit (ch : ascii) : bool :=
  let n := Ascii.nat_of_ascii ch in (48 <=? n) && (n <=? 57).

(** [t] matches the template [tpl], where ["D"] stands for a decimal digit
    and any other character for itself. *)
Fixpoint matches_template (tpl t : string) : bool :=
  match tpl, t with
  | EmptyString, EmptyString => true
  | String tc tpl', String ch t' =>
      (if Ascii.eqb tc "D"%char then is_digit ch else Ascii.eqb tc ch)
      && matches_template tpl' t'
  | _, _ => false
  end.

(** ISO-8601 extended date and time, to the second or to the microsecond. *)
Definition iso8601_shape (t : string) : bool :=
  matches_template "DDDD-DD-DDTDD:DD:DD" t
  || matches_template "DDDD-DD-DDTDD:DD:DD.DDDDDD" t.

Fixpoint digit_template (w : nat) : string :=
  match w with
  | 0 => EmptyString
  | S w' => digit_template w' +:+ "D"
  end.

Definition demo_now : datetime :=
  {| year := 2025; month := 6; day := 30; hour := 14; minute := 7; second := 3;
     microsecond := 250 |}.

Definition demo_history_state : session_state :=
  {| session_id := "0b9f3c2e-6a1d-4f7e-9c55-2d8e1a7b4c10";
     messages := [{| role := User; content := "Hello" |};
                  {| role := Assistant; content := "Hi" |}];
     client_initialized := true; client := Some 0 |}.

(* ------------------------------------------------------------------ *)
(** ** Evaluation on small inputs *)

Example utf8_ok : utf8_decode [x48; x69] = Ret "Hi".
Proof. reflexivity. Qed.
Example utf8_bad : utf8_decode [xe2; x82] = Raise (PyError "UnicodeDecodeError" "'utf-8' codec can't decode bytes in position 0-1: unexpected end of data").
Proof. reflexivity. Qed.
Example utf8_bad2 : utf8_decode [x41; xff] = Raise (PyError "UnicodeDecodeError" "'utf-8' codec can't decode byte 0xff in position 1: invalid start byte").
Proof. reflexivity. Qed.
Example repr_ex : bytes_repr [x48; x27; x0a; xff] = "b" +:+ byte_str x22 +:+ "H'\n\xff" +:+ byte_str x22.
Proof. reflexivity. Qed.

Example iso_ex : isoformat {| year := 2024; month := 3; day := 7; hour := 9;
  minute := 5; second := 0; microsecond := 1234 |} = "2024-03-07T09:05:00.001234".
Proof. reflexivity. Qed.
Example iso_ex2 : isoformat {| year := 2024; month := 12; day := 17; hour := 19;
  minute := 45; second := 59; microsecond := 0 |} = "2024-12-17T19:45:59".
Proof. reflexivity. Qed.

(** The spec's scenario of section 8: no secrets file, no environment
    variables, failing probe on the default client. *)
Example initialize_all_sources_fail :
  initialize_aws_client
    {| st_secrets := Raise (PyError "FileNotFoundError" "No secrets found");
       environ := ∅;
       boto3_client := fun _ => Ret 7;
       list_agents := fun _ => Raise (PyError "AttributeError" "list_agents") |} []
  = (Ret None,
     [StWarning "Streamlit secrets method failed: No secrets found";
      Boto3Client (mk_args None None None); ListAgents 7;
      StError "Default credentials method failed: list_agents"]).
Proof. reflexivity. Qed.

Example chat_turn_hello :
  messages (page_run demo_page_env (ChatInput "Hello") demo_ready_state) =
  [{| role := User; content := "Hello" |}; {| role := Assistant; content := "Hi" |}].
Proof. reflexivity. Qed.

(* ================================================================== *)
(** * Properties *)

Lemma process_response_first_chunk b rest :
  process_response (stream (Item (chunk_event b) :: rest)) =
  match utf8_decode b with
  | Ret t => Ret (Some t)
  | Raise e => Raise (Exception2 "unexpected event." (VExn e))
  end.
Proof. unfold process_response; simpl. by destruct (utf8_decode b). Qed.

Lemma generate_response_total ia c prompt aid alid sid :
  exists t, generate_response ia c prompt aid alid sid = Ret t.
Proof.
  unfold generate_response, otry, obind.
  destruct (ia c _) as [resp|e].
  - destruct (process_response resp) as [r|e]; [by eexists|].
    destruct e as [op code m| | | |]; simpl;
      repeat (case_match; eauto); eauto.
  - destruct e as [op code m| | | |]; simpl; repeat (case_match; eauto); eauto.
Qed.

(** ** C1 *)

(** C1 (counterexample): a stream whose first event is a chunk with the
    byte 0xff, which is not valid UTF-8: [process_response] returns no
    text; it raises the wrapped [UnicodeDecodeError]. *)
Lemma process_response_invalid_utf8_C1 :
  ~ (exists t, process_response (stream [Item (chunk_event [xff])]) = Ret t) /\
  process_response (stream [Item (chunk_event [xff])]) =
  Raise (Exception2 "unexpected event."
           (VExn (PyError "UnicodeDecodeError"
                    "'utf-8' codec can't decode byte 0xff in position 0: invalid start byte"))).
Proof. split; [intros [t Ht]; discriminate Ht | reflexivity]. Qed.

(** C1 (amended): when the first event of the stream is a chunk carrying
    bytes [b], [process_response] returns the UTF-8 decoding of [b] if [b]
    is valid UTF-8 and otherwise raises the ["unexpected event."] error
    wrapping the decode error; in both cases the result is the one of the
    stream reduced to that first event, so no later event is consumed. *)
Theorem process_response_first_chunk_C1 (b : list byte) (rest : list stream_item) :
  process_response (stream (Item (chunk_event b) :: rest)) =
    process_response (stream [Item (chunk_event b)]) /\
  (utf8_scan [] 0 x00 0 b = None ->
   process_response (stream (Item (chunk_event b) :: rest)) =
     Ret (Some (String.string_of_list_byte b))) /\
  (forall e, utf8_scan [] 0 x00 0 b = Some e ->
   process_response (stream (Item (chunk_event b) :: rest)) =
     Raise (Exception2 "unexpected event." (VExn e))).
Proof.
  rewrite !process_response_first_chunk. unfold utf8_decode.
  split; [done|]. split.
  - intros ->. done.
  - intros e ->. done.
Qed.

Lemma process_response_first_chunk_C1_witness :
  utf8_scan [] 0 x00 0 [x48; x69] = None /\
  process_response (stream [Item (chunk_event [x48; x69]); StreamRaise NoCredentialsError]) =
    Ret (Some "Hi").
Proof.
  split; [reflexivity|].
  apply (proj1 (proj2 (process_response_first_chunk_C1 [x48; x69]
                         [StreamRaise NoCredentialsError]))).
  reflexivity.
Defined.

(** ** C4 *)

(** C4: when the first event of the stream has no chunk, [process_response]
    raises [Exception("unexpected event.", e)] where [e] is the inner
    [Exception("unexpected event.", event)] carrying the offending event. *)
Theorem process_response_unexpected_event_C4 (key value_repr : string)
    (rest : list stream_item) :
  process_response (stream (Item (EvOther key value_repr) :: rest)) =
  Raise (Exception2 "unexpected event."
           (VExn (Exception2 "unexpected event." (VEvent (EvOther key value_repr))))).
Proof. reflexivity. Qed.

(** ** C5 *)

(** C5: on an empty stream [process_response] returns [None] without
    raising, and [generate_response] then returns ["No response received"]. *)
Theorem empty_stream_no_response_C5 (c : aws_client) (prompt : string)
    (aid alid : option string) (sid : string) :
  process_response (stream []) = Ret None /\
  generate_response (answering_client (stream [])) c prompt aid alid sid =
    Ret "No response received".
Proof. split; reflexivity. Qed.

(** ** C9 *)

(** C9: when the first chunk decodes to the empty string,
    [generate_response] returns ["No response received"]. *)
Theorem empty_chunk_no_response_C9 (b : list byte) (rest : list stream_item)
    (c : aws_client) (prompt : string) (aid alid : option string) (sid : string) :
  utf8_decode b = Ret EmptyString ->
  generate_response (answering_client (stream (Item (chunk_event b) :: rest)))
    c prompt aid alid sid = Ret msg_no_response.
Proof.
  intros Hd. unfold generate_response, otry, obind, answering_client.
  rewrite process_response_first_chunk, Hd. reflexivity.
Qed.

Lemma empty_chunk_no_response_C9_witness :
  utf8_decode [] = Ret EmptyString /\
  generate_response (answering_client (stream [Item (chunk_event []);
                                               Item (chunk_event [x48])]))
    0 "Hello" (Some "AGENT") (Some "ALIAS") "sid" = Ret "No response received".
Proof.
  split; [reflexivity|].
  apply (empty_chunk_no_response_C9 [] _ 0 "Hello" (Some "AGENT") (Some "ALIAS") "sid").
  reflexivity.
Defined.

(** ** C2 *)

(** C2: [generate_response] never raises, and for a failure raised by the
    remote call it returns the message of its category: permission denied,
    agent not found, the service message, missing credentials, or the
    unexpected-error message with [str(e)]. *)
Theorem generate_response_never_raises_C2 (c : aws_client) (prompt : string)
    (aid alid : option string) (sid : string) :
  (forall ia : invoke_agent_fn,
     exists t, generate_response ia c prompt aid alid sid = Ret t) /\
  (forall op m,
     generate_response (raising_client (ClientError op "AccessDeniedException" m))
       c prompt aid alid sid = Ret "❌ Access denied. Check your AWS permissions for Bedrock.") /\
  (forall op m,
     generate_response (raising_client (ClientError op "ResourceNotFoundException" m))
       c prompt aid alid sid = Ret "❌ Agent not found. Check your Agent ID and Alias ID.") /\
  (forall op code m,
     code <> "AccessDeniedException" -> code <> "ResourceNotFoundException" ->
     generate_response (raising_client (ClientError op code m))
       c prompt aid alid sid = Ret ("❌ AWS Error: " +:+ m)) /\
  generate_response (raising_client NoCredentialsError) c prompt aid alid sid =
    Ret "❌ AWS credentials not found. Please configure credentials." /\
  (forall e,
     (forall op code m, e <> ClientError op code m) -> e <> NoCredentialsError ->
     generate_response (raising_client e) c prompt aid alid sid =
       Ret ("❌ Unexpected error: " +:+ py_str e)).
Proof.
  split; [intros ia; apply generate_response_total|].
  split; [intros; reflexivity|].
  split; [intros; reflexivity|].
  split.
  { intros op code m H1 H2. cbn -[String.eqb].
    apply String.eqb_neq in H1, H2. unfold msg_aws_error. by rewrite H1, H2. }
  split; [reflexivity|].
  intros e Hce Hnc. cbn.
  destruct e as [op code m| | | |]; [by destruct (Hce op code m)|done|done|done|done].
Qed.

Lemma generate_response_never_raises_C2_witness :
  generate_response (raising_client (ClientError "InvokeAgent" "ThrottlingException" "Rate exceeded"))
    0 "Hello" (Some "A") (Some "B") "sid" = Ret "❌ AWS Error: Rate exceeded" /\
  generate_response (raising_client (PyError "ReadTimeoutError" "Read timeout"))
    0 "Hello" (Some "A") (Some "B") "sid" = Ret "❌ Unexpected error: Read timeout".
Proof.
  pose proof (generate_response_never_raises_C2 0 "Hello" (Some "A") (Some "B") "sid")
    as (_ & _ & _ & Hgen & _ & Hunexp).
  split.
  - apply Hgen; discriminate.
  - apply Hunexp; discriminate.
Defined.

(** ** C3 *)

Lemma boto3_calls_app l1 l2 : boto3_calls (l1 ++ l2) = boto3_calls l1 ++ boto3_calls l2.
Proof. unfold boto3_calls. apply omap_app. Qed.

(** C3: [initialize_aws_client] never raises; the client it returns and
    the [boto3.client] calls it makes are those of trying, in order, the
    secrets, the environment and the default credentials (with the
    [list_agents] probe), stopping at the first source that yields a
    client, and [None] when none does. *)
Theorem initialize_aws_client_C3 (env : aws_env) (lg : list effect) :
  fst (initialize_aws_client env lg) = Ret (snd (spec_resolve env)) /\
  boto3_calls (snd (initialize_aws_client env lg)) =
    boto3_calls lg ++ fst (spec_resolve env).
Proof.
  unfold initialize_aws_client, method_secrets, method_environ, method_default,
    spec_resolve, spec_source_secrets, spec_source_environ, spec_source_default,
    call_boto3_client, secrets_contains, secrets_getitem, secrets_get,
    pbind, ptry, plift, pemit, pret, obind, getenv, str_truthy.
  destruct (st_secrets env) as [m|e]; cbn [fst snd first_success].
  all: repeat (case_match; simplify_eq/=);
       rewrite ?boto3_calls_app; cbn; rewrite ?app_nil_r, <- ?app_assoc; auto.
Qed.

(** ** C6 *)

(** C6 (counterexample): secrets holding only [AGENT_ID = 'AGENT1'] and a
    process environment holding only [AGENT_ALIAS_ID = 'E2']: reading
    [st.secrets['AGENT_ALIAS_ID']] raises, and the fallback [os.getenv]
    calls return the secret's [AGENT_ID] (copied into [os.environ] when the
    secrets were loaded) together with the environment's [AGENT_ALIAS_ID]. *)
Lemma get_agent_config_mixed_sources_C6 :
  let m : gmap string string := <["AGENT_ID" := "AGENT1"]> ∅ in
  let environ : gmap string string := <["AGENT_ALIAS_ID" := "E2"]> ∅ in
  m !! "AGENT_ALIAS_ID" = None /\ environ !! "AGENT_ID" = None /\
  get_agent_config (Ret m) environ = (Some "AGENT1", Some "E2").
Proof. vm_compute. auto. Qed.

(** C6 (amended): [get_agent_config] returns both identifiers from the
    secrets when both keys are there; when the secrets cannot be loaded it
    returns both from the process environment; when the secrets load but a
    key is missing, it falls back to [os.getenv] for both, and each
    identifier is then the secret's value if the secrets define it and the
    environment's otherwise, so one secret identifier can be paired with
    one environment identifier. *)
Theorem get_agent_config_sources_C6 (sec : secrets_store)
    (environ : gmap string string) :
  get_agent_config sec environ =
    match sec with
    | Ret m =>
        match m !! "AGENT_ID", m !! "AGENT_ALIAS_ID" with
        | Some a, Some b => (Some a, Some b)
        | oa, ob =>
            (match oa with Some a => Some a | None => environ !! "AGENT_ID" end,
             match ob with Some b => Some b | None => environ !! "AGENT_ALIAS_ID" end)
        end
    | Raise _ => (environ !! "AGENT_ID", environ !! "AGENT_ALIAS_ID")
    end.
Proof.
  unfold get_agent_config, secrets_getitem, secrets_environ, obind, getenv.
  destruct sec as [m|e]; [|done].
  rewrite !lookup_union.
  destruct (m !! "AGENT_ID") as [a|], (m !! "AGENT_ALIAS_ID") as [b|];
    destruct (environ !! "AGENT_ID"), (environ !! "AGENT_ALIAS_ID"); done.
Qed.

(** ** C10 *)

(** C10: the Clear Chat button empties [messages] and leaves
    [session_id], [client_initialized] and [client] as they were; the New
    Session button replaces [session_id] and empties [messages]. *)
Theorem clear_chat_frame_C10 (penv : page_env) (s : session_state) :
  page_run penv ClickClearChat s =
    {| session_id := session_id s; messages := [];
       client_initialized := client_initialized s; client := client s |} /\
  (forall fresh_uuid : string,
     page_run penv (ClickNewSession fresh_uuid) s =
       {| session_id := fresh_uuid; messages := [];
          client_initialized := client_initialized s; client := client s |}).
Proof. split; reflexivity. Qed.

(** ** C7 *)

Lemma chat_turn_extends (penv : page_env) (p : string) (s : session_state) :
  exists suf, messages (chat_turn penv p s) = messages s ++ suf.
Proof.
  unfold chat_turn.
  repeat case_match; simpl;
    first [ exists []; by rewrite app_nil_r
          | eexists; by rewrite <- app_assoc
          | by eexists ].
Qed.

Lemma chat_turn_success (penv : page_env) (p : string) (s : session_state)
    (c : aws_client) :
  client_initialized s = true -> client s = Some c -> config_ok penv = true ->
  p <> EmptyString ->
  exists r, chat_turn penv p s =
    set_messages s (messages s ++ [{| role := User; content := p |};
                                   {| role := Assistant; content := r |}]).
Proof.
  intros Hi Hc Hcfg Hp. unfold config_ok in Hcfg. unfold chat_turn.
  rewrite Hi, Hc. destruct (get_agent_config _ _) as [a b].
  rewrite Hcfg. simpl.
  assert (Hne : (p =? EmptyString)%string = false) by (by apply String.eqb_neq).
  rewrite Hne. simpl.
  destruct (generate_response_total (invoke_agent penv) c p a b (session_id s))
    as [r Hr].
  rewrite Hr. exists r. unfold set_messages; simpl. by rewrite <- app_assoc.
Qed.

Lemma chat_turns_roles (penv : page_env) (c : aws_client) (prompts : list string) :
  forall s0, client_initialized s0 = true -> client s0 = Some c ->
  config_ok penv = true -> Forall (fun p => p <> EmptyString) prompts ->
  let s := fold_left (fun s p => page_run penv (ChatInput p) s) prompts s0 in
  map role (messages s) =
    map role (messages s0) ++ concat (repeat [User; Assistant] (length prompts)).
Proof.
  induction prompts as [|p ps IH]; intros s0 Hi Hc Hcfg Hall; simpl.
  - by rewrite app_nil_r.
  - inversion Hall as [|? ? Hp Hps]; subst.
    destruct (chat_turn_success penv p s0 c Hi Hc Hcfg Hp) as [r Hr].
    rewrite Hr. rewrite IH; [|done|done|done|done].
    simpl. rewrite map_app, <- app_assoc. done.
Qed.

(** C7: from an empty history, with the client ready and the agent
    configuration present, [N] submitted prompts leave [messages] with
    [2N] entries whose roles alternate user/assistant starting with user;
    and a chat turn only ever appends to [messages]. *)
Theorem chat_history_alternates_C7 (penv : page_env) (c : aws_client)
    (s0 : session_state) (prompts : list string) :
  client_initialized s0 = true -> client s0 = Some c -> config_ok penv = true ->
  messages s0 = [] -> Forall (fun p => p <> EmptyString) prompts ->
  let s := fold_left (fun s p => page_run penv (ChatInput p) s) prompts s0 in
  length (messages s) = 2 * length prompts /\
  map role (messages s) = concat (repeat [User; Assistant] (length prompts)) /\
  (forall (p : string) (s' : session_state),
     exists suf, messages (page_run penv (ChatInput p) s') = messages s' ++ suf).
Proof.
  intros Hi Hc Hcfg Hm Hall s.
  pose proof (chat_turns_roles penv c prompts s0 Hi Hc Hcfg Hall) as Hr.
  fold s in Hr. rewrite Hm in Hr. simpl in Hr.
  split; [|split; [exact Hr|]].
  - rewrite <- (length_map role), Hr.
    clear. induction (length prompts) as [|n IHn]; simpl; [done|]. lia.
  - intros p s'. apply chat_turn_extends.
Qed.

Lemma chat_history_alternates_C7_witness :
  client_initialized demo_ready_state = true /\
  client demo_ready_state = Some 0 /\
  config_ok demo_page_env = true /\
  messages demo_ready_state = [] /\
  Forall (fun p => p <> EmptyString) ["Hello"; "Bye"] /\
  length (messages (fold_left (fun s p => page_run demo_page_env (ChatInput p) s)
                      ["Hello"; "Bye"] demo_ready_state)) = 4.
Proof.
  assert (Hcfg : config_ok demo_page_env = true) by reflexivity.
  assert (Hall : Forall (fun p => p <> EmptyString) ["Hello"; "Bye"])
    by (repeat constructor; discriminate).
  split; [reflexivity|]. split; [reflexivity|]. split; [exact Hcfg|].
  split; [reflexivity|]. split; [exact Hall|].
  exact (proj1 (chat_history_alternates_C7 demo_page_env 0 demo_ready_state
                  ["Hello"; "Bye"] eq_refl eq_refl Hcfg eq_refl Hall)).
Defined.

(** ** C8 *)

Lemma matches_template_app t1 t2 s1 s2 :
  matches_template t1 s1 = true -> matches_template t2 s2 = true ->
  matches_template (t1 +:+ t2) (s1 +:+ s2) = true.
Proof.
  revert s1. induction t1 as [|tc t1 IH]; intros [|ch s1]; simpl; try done.
  intros H1 H2. apply andb_true_iff in H1 as [Hc Hr].
  rewrite Hc. simpl. by apply IH.
Qed.

Lemma digit_str_matches n : matches_template "D" (digit_str n) = true.
Proof.
  unfold digit_str.
  assert (Hlt : N.to_nat (n `mod` 10) < 10).
  { assert (H10 : (n `mod` 10 < 10)%N) by (apply N.mod_lt; lia). lia. }
  remember (N.to_nat (n `mod` 10)) as k eqn:Hk. clear Hk.
  do 10 (destruct k as [|k]; [reflexivity|]). lia.
Qed.

Lemma fixed_digits_matches w n :
  matches_template (digit_template w) (fixed_digits w n) = true.
Proof.
  revert n. induction w as [|w IH]; intros n; [done|].
  simpl. apply matches_template_app; [apply IH|apply digit_str_matches].
Qed.

Lemma zfill_matches w n :
  (n < 10 ^ N.of_nat w)%N -> matches_template (digit_template w) (zfill w n) = true.
Proof.
  intros Hn. unfold zfill.
  destruct (N.ltb_spec n (10 ^ N.of_nat w)); [apply fixed_digits_matches|lia].
Qed.

Lemma isoformat_shape (d : datetime) :
  valid_datetime d -> iso8601_shape (isoformat d) = true.
Proof.
  intros (Hy & Hmo & Hd & Hh & Hmi & Hs & Hus).
  assert (Hy' : (year d < 10 ^ N.of_nat 4)%N) by (simpl; lia).
  assert (Hmo' : (month d < 10 ^ N.of_nat 2)%N) by (simpl; lia).
  assert (Hd' : (day d < 10 ^ N.of_nat 2)%N) by (simpl; lia).
  assert (Hh' : (hour d < 10 ^ N.of_nat 2)%N) by (simpl; lia).
  assert (Hmi' : (minute d < 10 ^ N.of_nat 2)%N) by (simpl; lia).
  assert (Hs' : (second d < 10 ^ N.of_nat 2)%N) by (simpl; lia).
  assert (Hus' : (microsecond d < 10 ^ N.of_nat 6)%N) by (simpl; lia).
  unfold iso8601_shape, isoformat.
  apply orb_true_iff.
  destruct (N.eqb (microsecond d) 0).
  - left.
    change "DDDD-DD-DDTDD:DD:DD" with
      (digit_template 4 +:+ "-" +:+ digit_template 2 +:+ "-" +:+ digit_template 2
       +:+ "T" +:+ digit_template 2 +:+ ":" +:+ digit_template 2 +:+ ":"
       +:+ digit_template 2 +:+ EmptyString).
    repeat (apply matches_template_app; [first [by apply zfill_matches | done]|]).
    done.
  - right.
    change "DDDD-DD-DDTDD:DD:DD.DDDDDD" with
      (digit_template 4 +:+ "-" +:+ digit_template 2 +:+ "-" +:+ digit_template 2
       +:+ "T" +:+ digit_template 2 +:+ ":" +:+ digit_template 2 +:+ ":"
       +:+ digit_template 2 +:+ "." +:+ digit_template 6).
    repeat (apply matches_template_app; [first [by apply zfill_matches | done]|]).
    by apply zfill_matches.
Qed.

(** C8: when the history is non-empty, the export button offers the JSON
    serialisation of exactly [{session_id, timestamp, messages}], with the
    timestamp in ISO-8601 form, under the file name
    [chat_<first 8 characters of session_id>.json]. *)
Theorem export_chat_C8 (json_dumps : json -> string) (s : session_state)
    (now : datetime) :
  messages s <> [] -> valid_datetime now ->
  export_chat json_dumps s now =
    Some {| dl_label := "💾 Download Chat";
            dl_data := json_dumps
                         (JObj [("session_id", JStr (session_id s));
                                ("timestamp", JStr (isoformat now));
                                ("messages", JArr (map message_json (messages s)))]);
            dl_file_name := "chat_" +:+ String.substring 0 8 (session_id s) +:+ ".json";
            dl_mime := "application/json" |} /\
  iso8601_shape (isoformat now) = true.
Proof.
  intros Hne Hvalid. split; [|by apply isoformat_shape].
  unfold export_chat, chat_export_value. by destruct (messages s).
Qed.

Lemma export_chat_C8_witness :
  (export_chat (fun _ => "{}") demo_history_state demo_now <> None) /\
  iso8601_shape (isoformat demo_now) = true /\
  option_map dl_file_name (export_chat (fun _ => "{}") demo_history_state demo_now)
    = Some "chat_0b9f3c2e.json".
Proof.
  assert (Hne : messages demo_history_state <> []) by discriminate.
  assert (Hv : valid_datetime demo_now).
  { unfold valid_datetime; simpl. lia. }
  destruct (export_chat_C8 (fun _ => "{}") demo_history_state demo_now Hne Hv)
    as [He Hiso].
  split; [by rewrite He|]. split; [exact Hiso|]. rewrite He. reflexivity.
Defined.

(* ================================================================== *)
(** * Further properties of the script *)

Lemma string_app_assoc (a b c : string) : (a +:+ b) +:+ c = a +:+ (b +:+ c).
Proof. induction a as [|ch a IH]; [done|exact (f_equal (String ch) IH)]. Qed.

Lemma utf8_scan_ascii bs start lead pos :
  Forall (fun b => Byte.to_nat b < 128) bs -> utf8_scan [] start lead pos bs = None.
Proof.
  intros Hall. revert start lead pos.
  induction Hall as [|b bs Hb Hbs IH]; intros start lead pos; [done|].
  simpl. unfold utf8_cont_ranges.
  destruct (Nat.ltb_spec (Byte.to_nat b) 128); [apply IH|lia].
Qed.

(** A stream whose iterator raises before yielding any event: the error is
    wrapped as ["unexpected event."]; in particular an access-denied error
    delivered inside the stream reaches [generate_response] as an unexpected
    error, not as the permission-denied message. *)
Theorem process_response_stream_error (e : exn) (rest : list stream_item)
    (op m : string) (c : aws_client) (prompt : string) (aid alid : option string)
    (sid : string) :
  process_response (stream (StreamRaise e :: rest)) =
    Raise (Exception2 "unexpected event." (VExn e)) /\
  generate_response
    (answering_client (stream (StreamRaise (ClientError op "AccessDeniedException" m) :: rest)))
    c prompt aid alid sid =
    Ret (msg_unexpected (Exception2 "unexpected event."
                           (VExn (ClientError op "AccessDeniedException" m)))).
Proof. split; reflexivity. Qed.

(** A first chunk without a ['bytes'] key: the [KeyError] is wrapped as
    ["unexpected event."]. *)
Theorem process_response_chunk_without_bytes (rest : list stream_item) :
  process_response (stream (Item (EvChunk {| chunk_bytes := None |}) :: rest)) =
    Raise (Exception2 "unexpected event." (VExn (KeyError "bytes"))).
Proof. reflexivity. Qed.

(** A first chunk made of ASCII bytes is returned as it is, whatever follows. *)
Theorem process_response_ascii_chunk (bs : list byte) (rest : list stream_item) :
  Forall (fun b => Byte.to_nat b < 128) bs ->
  process_response (stream (Item (chunk_event bs) :: rest)) =
    Ret (Some (String.string_of_list_byte bs)).
Proof.
  intros Hall. rewrite process_response_first_chunk. unfold utf8_decode.
  by rewrite utf8_scan_ascii.
Qed.

Lemma process_response_ascii_chunk_witness :
  Forall (fun b => Byte.to_nat b < 128) [x4f; x4b] /\
  process_response (stream [Item (chunk_event [x4f; x4b]); Item (EvOther "trace" "{}")]) =
    Ret (Some "OK").
Proof.
  assert (H : Forall (fun b => Byte.to_nat b < 128) [x4f; x4b])
    by (repeat constructor; simpl; lia).
  split; [exact H|].
  exact (process_response_ascii_chunk [x4f; x4b] [Item (EvOther "trace" "{}")] H).
Defined.

(** When the first event has no chunk, the reply of [generate_response] is
    the unexpected-error message showing the doubly wrapped event. *)
Theorem generate_response_unexpected_event_text (key value_repr : string)
    (rest : list stream_item) (c : aws_client) (prompt : string)
    (aid alid : option string) (sid : string) :
  generate_response (answering_client (stream (Item (EvOther key value_repr) :: rest)))
    c prompt aid alid sid =
  Ret ("❌ Unexpected error: ('unexpected event.', Exception('unexpected event.', {"
       +:+ str_repr key +:+ ": " +:+ value_repr +:+ "}))").
Proof.
  cbv [generate_response otry obind answering_client process_response for_events
       process_event completion stream generate_response_handler msg_unexpected
       py_str pyval_repr py_repr event_repr].
  rewrite ?string_app_assoc. reflexivity.
Qed.

(** [generate_response] never returns the empty string: an empty decoded
    chunk becomes ["No response received"] and every error message is
    non-empty. *)
Theorem generate_response_nonempty (ia : invoke_agent_fn) (c : aws_client)
    (prompt : string) (aid alid : option string) (sid : string) :
  exists t, generate_response ia c prompt aid alid sid = Ret t /\ t <> EmptyString.
Proof.
  unfold generate_response, otry, obind.
  destruct (ia c _) as [resp|e].
  - destruct (process_response resp) as [[t|]|e].
    + unfold str_truthy. destruct (String.eqb_spec t EmptyString) as [->|Ht];
        simpl; eexists; split; eauto; discriminate.
    + eexists; split; [reflexivity|discriminate].
    + destruct e as [op code m| | | |]; simpl;
        repeat case_match; eexists; split; eauto; discriminate.
  - destruct e as [op code m| | | |]; simpl;
      repeat case_match; eexists; split; eauto; discriminate.
Qed.

Ltac resolve_cases :=
  unfold initialize_aws_client, method_secrets, method_environ, method_default,
    spec_resolve, spec_source_secrets, spec_source_environ, spec_source_default,
    call_boto3_client, secrets_contains, secrets_getitem, secrets_get,
    pbind, ptry, plift, pemit, pret, obind, getenv, str_truthy;
  let env := match goal with env : aws_env |- _ => env end in
  destruct (st_secrets env) as [?m|?e]; cbn [fst snd first_success];
  repeat (case_match; simplify_eq/=).

Lemma initialize_aws_client_resolves (env : aws_env) (lg : list effect) :
  fst (initialize_aws_client env lg) = Ret (snd (spec_resolve env)).
Proof. resolve_cases; done. Qed.

(** [initialize_aws_client] reports its outcome on the page: when it
    returns a client exactly one success message is shown; when it returns
    [None] no success message is shown and the last message is the
    default-credentials error. *)
Theorem initialize_aws_client_reports (env : aws_env) :
  match initialize_aws_client env [] with
  | (Ret (Some _), lg) => length (filter (fun ef => is_success_effect ef = true) lg) = 1
  | (Ret None, lg) =>
      length (filter (fun ef => is_success_effect ef = true) lg) = 0 /\
      exists m, last lg = Some (StError m)
  | (Raise _, _) => False
  end.
Proof.
  resolve_cases; rewrite ?filter_app; simpl; rewrite ?last_app; simpl; eauto.
Qed.

(** Only a client from the default credentials is probed: [list_agents] is
    called once, on that client, exactly when neither the secrets nor the
    environment gave a client and the default client could be built. *)
Theorem initialize_aws_client_probe (env : aws_env) :
  probe_calls (snd (initialize_aws_client env [])) =
    match snd (spec_source_secrets env), snd (spec_source_environ env) with
    | None, None =>
        match boto3_client env (mk_args None None None) with
        | Ret c => [c]
        | Raise _ => []
        end
    | _, _ => []
    end.
Proof.
  resolve_cases; unfold probe_calls; rewrite ?omap_app; simpl; done.
Qed.

(** The Initialize and Retry buttons.  Initialize, shown while the client
    is not initialised, stores the resolved client (possibly [None]) and
    marks the client initialised; Retry, shown once initialisation gave no
    client, stores a freshly resolved client; on the other states the
    buttons are absent and the run changes nothing. *)
Theorem page_initialize_retry (penv : page_env) (s : session_state) :
  (client_initialized s = false ->
   page_run penv ClickInitialize s = set_client s (snd (spec_resolve (aws penv))) true) /\
  (client_initialized s = true -> client s = None ->
   page_run penv ClickRetry s = set_client s (snd (spec_resolve (aws penv))) true) /\
  (client_initialized s = true -> page_run penv ClickInitialize s = s) /\
  (client_initialized s = false \/ is_Some (client s) -> page_run penv ClickRetry s = s).
Proof.
  unfold page_run, run_initialize.
  pose proof (initialize_aws_client_resolves (aws penv) []) as Hr.
  destruct (initialize_aws_client (aws penv) []) as [o lg]; simpl in Hr; subst o.
  split; [intros ->; done|].
  split; [intros -> ->; done|].
  split; [intros ->; done|].
  intros [->|[c ->]]; [done|]. by destruct (client_initialized s).
Qed.

Lemma page_initialize_retry_witness :
  page_run demo_page_env ClickInitialize (initial_session_state "sid-1") =
    set_client (initial_session_state "sid-1") (Some 0) true.
Proof.
  exact (proj1 (page_initialize_retry demo_page_env (initial_session_state "sid-1"))
           eq_refl).
Defined.

(** Only the New Session button changes [session_id]; only the Initialize
    and Retry buttons change [client] and [client_initialized]. *)
Theorem page_run_frame (penv : page_env) (ev : ui_event) (s : session_state) :
  ((forall u, ev <> ClickNewSession u) ->
   session_id (page_run penv ev s) = session_id s) /\
  (ev <> ClickInitialize -> ev <> ClickRetry ->
   client (page_run penv ev s) = client s /\
   client_initialized (page_run penv ev s) = client_initialized s).
Proof.
  split.
  - intros Hns. destruct ev as [|u| | | |p]; try done.
    + by destruct (Hns u).
    + simpl. destruct (client_initialized s); [done|].
      destruct (run_initialize _ _) as [c [|]]; done.
    + simpl. destruct (client_initialized s); [|done].
      destruct (client s); [done|].
      destruct (run_initialize _ _) as [c [|]]; done.
    + simpl. unfold chat_turn. repeat case_match; done.
  - intros Hi Hr. destruct ev as [|u| | | |p]; try done.
    simpl. unfold chat_turn. repeat case_match; done.
Qed.

Lemma page_run_frame_witness :
  session_id (page_run demo_page_env (ChatInput "Hello") demo_ready_state) =
    session_id demo_ready_state /\
  client (page_run demo_page_env ClickClearChat demo_ready_state) = client demo_ready_state.
Proof.
  split.
  - apply (proj1 (page_run_frame demo_page_env (ChatInput "Hello") demo_ready_state)).
    intros u; discriminate.
  - apply (proj2 (page_run_frame demo_page_env ClickClearChat demo_ready_state));
      discriminate.
Defined.

(** A submitted prompt is dropped, and the run changes nothing, when the
    client is not initialised, when there is no client, when the agent
    configuration is missing, or when the prompt is empty. *)
Theorem chat_input_blocked (penv : page_env) (p : string) (s : session_state) :
  client_initialized s = false \/ client s = None \/ config_ok penv = false \/
  p = EmptyString ->
  page_run penv (ChatInput p) s = s.
Proof.
  intros H. simpl. unfold chat_turn. unfold config_ok in H.
  destruct (client_initialized s) eqn:Hi; [|done]. simpl.
  destruct (client s) as [c|] eqn:Hc; [|done].
  destruct (get_agent_config _ _) as [a b].
  destruct H as [H | [H | [H | ->]]]; try discriminate.
  - by rewrite H.
  - destruct (str_truthy a && str_truthy b); [|done]. done.
Qed.

Lemma chat_input_blocked_witness :
  page_run demo_page_env (ChatInput "Hello") (initial_session_state "sid-1") =
    initial_session_state "sid-1".
Proof. apply chat_input_blocked. left. reflexivity. Defined.

(** A failed remote call still completes the chat turn: the prompt and the
    error message of [generate_response] are appended as the user and the
    assistant message. *)
Theorem chat_turn_failure_reply (env : aws_env) (e : exn) (s : session_state)
    (c : aws_client) (p m : string) :
  client_initialized s = true -> client s = Some c ->
  config_ok {| aws := env; invoke_agent := raising_client e |} = true ->
  p <> EmptyString -> generate_response_handler e = Ret m ->
  messages (page_run {| aws := env; invoke_agent := raising_client e |} (ChatInput p) s) =
    messages s ++ [{| role := User; content := p |}; {| role := Assistant; content := m |}].
Proof.
  intros Hi Hc Hcfg Hp Hm. simpl. unfold chat_turn, config_ok in *. simpl in *.
  rewrite Hi, Hc. simpl. destruct (get_agent_config _ _) as [a b]. rewrite Hcfg.
  assert (Hne : (p =? EmptyString)%string = false) by (by apply String.eqb_neq).
  simpl. rewrite Hne. simpl. unfold generate_response, otry, obind, raising_client.
  rewrite Hm. simpl. by rewrite <- app_assoc.
Qed.

Lemma chat_turn_failure_reply_witness :
  messages (page_run {| aws := aws demo_page_env;
                        invoke_agent := raising_client NoCredentialsError |}
              (ChatInput "Hello") demo_ready_state) =
    [{| role := User; content := "Hello" |};
     {| role := Assistant;
        content := "❌ AWS credentials not found. Please configure credentials." |}].
Proof.
  apply (chat_turn_failure_reply (aws demo_page_env) NoCredentialsError
           demo_ready_state 0 "Hello"); reflexivity || discriminate.
Defined.

Lemma user_count_alternating (n : nat) :
  forall ms : list message, map role ms = concat (repeat [User; Assistant] n) ->
  length (filter (fun m => is_user_message m = true) ms) = n.
Proof.
  induction n as [|n IH]; intros ms Hms.
  - destruct ms; [done|discriminate].
  - destruct ms as [|[r1 t1] [|[r2 t2] ms]]; try discriminate.
    simpl in Hms. injection Hms as -> -> Hms.
    rewrite !filter_cons.
    repeat case_decide; cbn [is_user_message role] in *; try congruence.
    cbn [length]. by rewrite (IH ms Hms).
Qed.

(** The statistics panel: from an empty history, after [N] submitted
    prompts with the client ready and the configuration present, it shows
    [2N] messages of which [N] are user messages. *)
Theorem chat_stats_after_turns (penv : page_env) (c : aws_client)
    (s0 : session_state) (prompts : list string) :
  client_initialized s0 = true -> client s0 = Some c -> config_ok penv = true ->
  messages s0 = [] -> Forall (fun p => p <> EmptyString) prompts ->
  let s := fold_left (fun s p => page_run penv (ChatInput p) s) prompts s0 in
  message_count s = 2 * length prompts /\ user_message_count s = length prompts.
Proof.
  intros Hi Hc Hcfg Hm Hall s.
  pose proof (chat_turns_roles penv c prompts s0 Hi Hc Hcfg Hall) as Hr.
  fold s in Hr. rewrite Hm in Hr. simpl in Hr.
  unfold message_count, user_message_count. split.
  - rewrite <- (length_map role), Hr.
    clear. induction (length prompts) as [|n IHn]; simpl; [done|]. lia.
  - exact (user_count_alternating _ _ Hr).
Qed.

Lemma chat_stats_after_turns_witness :
  user_message_count (fold_left (fun s p => page_run demo_page_env (ChatInput p) s)
                        ["Hello"; "Bye"; "Thanks"] demo_ready_state) = 3.
Proof.
  assert (Hall : Forall (fun p => p <> EmptyString) ["Hello"; "Bye"; "Thanks"])
    by (repeat constructor; discriminate).
  exact (proj2 (chat_stats_after_turns demo_page_env 0 demo_ready_state
                  ["Hello"; "Bye"; "Thanks"] eq_refl eq_refl eq_refl eq_refl Hall)).
Defined.

(** The export button is offered exactly when the history is non-empty; in
    particular it disappears after Clear Chat and after New Session. *)
Theorem export_offered_iff_history (json_dumps : json -> string) (penv : page_env)
    (s : session_state) (now : datetime) (u : string) :
  (export_chat json_dumps s now = None <-> messages s = []) /\
  export_chat json_dumps (page_run penv ClickClearChat s) now = None /\
  export_chat json_dumps (page_run penv (ClickNewSession u) s) now = None.
Proof.
  unfold export_chat. split; [|done].
  destruct (messages s); split; done.
Qed.

(** A secrets file that defines [AGENT_ID] as the empty string, with an
    [AGENT_ALIAS_ID], blocks every chat input: the environment is not
    consulted and the configuration check fails. *)
Theorem empty_secret_agent_id_blocks_chat (penv : page_env) (m : gmap string string)
    (alias : string) (p : string) (s : session_state) :
  st_secrets (aws penv) = Ret m -> m !! "AGENT_ID" = Some EmptyString ->
  m !! "AGENT_ALIAS_ID" = Some alias ->
  get_agent_config (st_secrets (aws penv)) (environ (aws penv)) =
    (Some EmptyString, Some alias) /\
  page_run penv (ChatInput p) s = s.
Proof.
  intros Hs Hid Hal.
  assert (Hcfg : get_agent_config (st_secrets (aws penv)) (environ (aws penv)) =
                 (Some EmptyString, Some alias)).
  { unfold get_agent_config, secrets_getitem, obind. by rewrite Hs, Hid, Hal. }
  split; [exact Hcfg|].
  apply chat_input_blocked. right; right; left.
  unfold config_ok. by rewrite Hcfg.
Qed.

Definition demo_env_with_empty_id : page_env :=
  {| aws := {| st_secrets := Ret (<["AGENT_ID" := EmptyString]>
                                   (<["AGENT_ALIAS_ID" := "ALIAS1"]> ∅));
               environ := <["AGENT_ID" := "AGENT_FROM_ENV"]>
                            (<["AGENT_ALIAS_ID" := "ALIAS_FROM_ENV"]> ∅);
               boto3_client := fun _ => Ret 0;
               list_agents := fun _ => Ret tt |};
     invoke_agent := invoke_agent demo_page_env |}.

Lemma empty_secret_agent_id_blocks_chat_witness :
  page_run demo_env_with_empty_id (ChatInput "Hello") demo_ready_state = demo_ready_state.
Proof.
  exact (proj2 (empty_secret_agent_id_blocks_chat demo_env_with_empty_id
                  (<["AGENT_ID" := EmptyString]> (<["AGENT_ALIAS_ID" := "ALIAS1"]> ∅))
                  "ALIAS1" "Hello" demo_ready_state eq_refl eq_refl eq_refl)).
Defined.
